(** * examples/defi-metrics/cocoindex/flow.py

    The repository ships one Python file: a module docstring followed by a
    commented-out outline of a CocoIndex flow.  This development embeds

    - the text of the file, line by line ([Source]);
    - the part of Python's lexical structure the file exercises: physical
      lines, blank lines, comment lines and triple-quoted string literals
      ([Lexer]);
    - a parser for top-level simple statements that rejects everything it
      does not know ([Parser]);
    - the execution of a module body over a namespace and an outside world
      ([Semantics]);

    and proves what running the module does (and does not do). *)

From Stdlib Require Import Ascii String.
From stdpp Require Import gmap strings list.

Open Scope string_scope.

(** ** The text of the file *)

Module Source.

(** The double quote character (code 34) and the triple quote that opens and
    closes the docstring. *)
Definition q_char : ascii := "034"%char.
Definition q : string := String q_char EmptyString.
Definition q3 : string := q +:+ q +:+ q.

Definition newline : ascii := "010"%char.

(** flow.py, lines 1 to 38.  The last line carries no line terminator. *)
Definition flow_py_lines : list string :=
  [ q3 +:+ "Placeholder CocoIndex flow.";
    "";
    "This file is intentionally a sketch, because w3rt's CI/runtime is TS/Node.";
    "Run CocoIndex as a sidecar to populate Postgres table `defi_metrics`.";
    "";
    "You can implement sources per protocol (Solend/Kamino/Meteora/Drift/Jito/Marinade/Jupiter)";
    "then export normalized rows.";
    "";
    "Docs: https://cocoindex.io/docs";
    q3;
    "";
    "# Example outline (pseudo-code):";
    "#";
    "# import cocoindex";
    "#";
    "# @cocoindex.flow_def(name=" +:+ q +:+ "SolanaDefiMetrics" +:+ q +:+ ")";
    "# def flow(flow_builder: cocoindex.FlowBuilder, scope: cocoindex.DataScope):";
    "#     scope[" +:+ q +:+ "raw" +:+ q +:+ "] = flow_builder.add_source(cocoindex.sources.HttpJson(urls=[...]))";
    "#     metrics = scope.add_collector()";
    "#     with scope[" +:+ q +:+ "raw" +:+ q +:+ "].row() as row:";
    "#         # normalize to our schema";
    "#         metrics.collect(";
    "#             chain=" +:+ q +:+ "solana" +:+ q +:+ ",";
    "#             protocol=row[" +:+ q +:+ "protocol" +:+ q +:+ "],";
    "#             market=row[" +:+ q +:+ "market" +:+ q +:+ "],";
    "#             tvl_usd=row[" +:+ q +:+ "tvl_usd" +:+ q +:+ "],";
    "#             liquidity_usd=row[" +:+ q +:+ "liquidity_usd" +:+ q +:+ "],";
    "#             price_vol_5m_bps=row[" +:+ q +:+ "price_vol_5m_bps" +:+ q +:+ "],";
    "#             borrow_utilization_bps=row[" +:+ q +:+ "borrow_utilization_bps" +:+ q +:+ "],";
    "#             source_url=row[" +:+ q +:+ "source_url" +:+ q +:+ "],";
    "#             updated_at=row[" +:+ q +:+ "updated_at" +:+ q +:+ "],";
    "#         )";
    "#";
    "#     metrics.export(";
    "#         " +:+ q +:+ "defi_metrics" +:+ q +:+ ",";
    "#         cocoindex.targets.Postgres(),";
    "#         primary_key_fields=[" +:+ q +:+ "chain" +:+ q +:+ ", " +:+ q +:+ "protocol" +:+ q +:+ ", " +:+ q +:+ "market" +:+ q +:+ "],";
    "#     )" ].

(** Lines joined by LF, none after the last one. *)
Fixpoint join_lines (ls : list string) : string :=
  match ls with
  | [] => EmptyString
  | [l] => l
  | l :: ls' => l +:+ String newline (join_lines ls')
  end.

(** The file as the interpreter reads it: 1318 bytes. *)
Definition flow_py : string := join_lines flow_py_lines.

(** The value of the string literal of lines 1 to 10: everything between the
    two triple quotes, line terminators included. *)
Definition flow_docstring : string :=
  join_lines
    [ "Placeholder CocoIndex flow.";
      "";
      "This file is intentionally a sketch, because w3rt's CI/runtime is TS/Node.";
      "Run CocoIndex as a sidecar to populate Postgres table `defi_metrics`.";
      "";
      "You can implement sources per protocol (Solend/Kamino/Meteora/Drift/Jito/Marinade/Jupiter)";
      "then export normalized rows.";
      "";
      "Docs: https://cocoindex.io/docs";
      "" ].

(** The keyword arguments of the [metrics.collect] call sketched in the
    comment of lines 22 to 32. *)
Definition row_fields : list string :=
  [ "chain"; "protocol"; "market"; "tvl_usd"; "liquidity_usd";
    "price_vol_5m_bps"; "borrow_utilization_bps"; "source_url"; "updated_at" ].

End Source.

(** ** Results *)

(** A computation that either returns or stops with an error. *)
Inductive result (E A : Type) : Type :=
| Ok (a : A)
| Err (e : E).

Arguments Ok {E A} a.
Arguments Err {E A} e.

#[global] Instance result_ret {E} : MRet (result E) := fun A a => Ok a.

#[global] Instance result_bind {E} : MBind (result E) :=
  fun A B k r =>
    match r with
    | Ok a => k a
    | Err e => Err e
    end.

Definition map_err {E F A} (f : E -> F) (r : result E A) : result F A :=
  match r with
  | Ok a => Ok a
  | Err e => Err (f e)
  end.

(** ** Lexical structure: physical lines *)

Module Lexer.
Import Source.

(** Split on LF.  A final line terminator does not start one more line. *)
Fixpoint split_lines_from (cur : string) (s : string) : list string :=
  match s with
  | EmptyString => if String.eqb cur "" then [] else [cur]
  | String c s' =>
      if Ascii.eqb c newline then cur :: split_lines_from "" s'
      else split_lines_from (cur +:+ String c "") s'
  end.

Definition split_lines (s : string) : list string := split_lines_from "" s.

(** Space, tab and form feed separate tokens and make up indentation. *)
Definition is_space (c : ascii) : bool :=
  Ascii.eqb c " "%char || Ascii.eqb c "009"%char || Ascii.eqb c "012"%char.

Fixpoint lstrip (s : string) : string :=
  match s with
  | EmptyString => EmptyString
  | String c s' => if is_space c then lstrip s' else s
  end.

Fixpoint all_space (s : string) : bool :=
  match s with
  | EmptyString => true
  | String c s' => is_space c && all_space s'
  end.

Fixpoint rstrip (s : string) : string :=
  match s with
  | EmptyString => EmptyString
  | String c s' => if all_space s then EmptyString else String c (rstrip s')
  end.

Definition strip (s : string) : string := rstrip (lstrip s).

Fixpoint drop_chars (n : nat) (s : string) : string :=
  match n, s with
  | S n', String _ s' => drop_chars n' s'
  | _, _ => s
  end.

Fixpoint contains_char (c : ascii) (s : string) : bool :=
  match s with
  | EmptyString => false
  | String d s' => Ascii.eqb c d || contains_char c s'
  end.

(** Cut [s] at the first triple quote: the text before it and the text after
    it. *)
Fixpoint split_at_triple (s : string) : option (string * string) :=
  match s with
  | EmptyString => None
  | String c s' =>
      if String.prefix q3 s then Some (EmptyString, drop_chars 3 s)
      else match split_at_triple s' with
           | Some (body, tail) => Some (String c body, tail)
           | None => None
           end
  end.

(** What one physical line is, given whether it starts inside a triple-quoted
    string.  [indented] records leading white space before the first token. *)
Inductive line_item : Type :=
| IBlank
| IComment (text : string)
| IStringWhole (indented : bool) (body tail : string)
| IStringOpen (indented : bool) (part : string)
| IStringMid (part : string)
| IStringClose (part tail : string)
| ICode (indented : bool) (text : string).

Definition lex_line (in_string : bool) (l : string) : line_item * bool :=
  if in_string then
    match split_at_triple l with
    | Some (part, tail) => (IStringClose part tail, false)
    | None => (IStringMid l, true)
    end
  else
    let t := lstrip l in
    let indented := negb (String.eqb t l) in
    if String.eqb t "" then (IBlank, false)
    else if String.prefix "#" t then (IComment t, false)
    else if String.prefix q3 t then
      match split_at_triple (drop_chars 3 t) with
      | Some (body, tail) => (IStringWhole indented body tail, false)
      | None => (IStringOpen indented (drop_chars 3 t), true)
      end
    else (ICode indented t, false).

Fixpoint lex_lines (in_string : bool) (ls : list string) : list line_item :=
  match ls with
  | [] => []
  | l :: ls' =>
      let '(item, in_string') := lex_line in_string l in
      item :: lex_lines in_string' ls'
  end.

(** The four kinds of physical line. *)
Inductive line_kind : Type := KBlank | KComment | KString | KCode.

Definition kind_of (i : line_item) : line_kind :=
  match i with
  | IBlank => KBlank
  | IComment _ => KComment
  | IStringWhole _ _ _ | IStringOpen _ _ | IStringMid _ | IStringClose _ _ => KString
  | ICode _ _ => KCode
  end.

Definition line_kind_eqb (a b : line_kind) : bool :=
  match a, b with
  | KBlank, KBlank | KComment, KComment | KString, KString | KCode, KCode => true
  | _, _ => false
  end.

Definition line_kinds (src : string) : list line_kind :=
  kind_of <$> lex_lines false (split_lines src).

(** A comment line: outside any string literal, its first character after
    the indentation is the hash sign. *)
Definition is_comment_kind (k : line_kind) : bool := line_kind_eqb k KComment.

Definition is_comment_or_blank (k : line_kind) : bool :=
  line_kind_eqb k KComment || line_kind_eqb k KBlank.

Definition count_kind (k : line_kind) (ks : list line_kind) : nat :=
  length (filter (fun k' => line_kind_eqb k k' = true) ks).

End Lexer.

(** ** Abstract syntax *)

Module Ast.

Inductive expr : Type :=
| EStr (s : string)
| ENone
| EName (x : string)
| ECall (callee : string).

Inductive stmt : Type :=
| SExpr (e : expr)
| SAssign (x : string) (e : expr)
| SPass
| SImport (m : string).

Definition module_body : Type := list stmt.

End Ast.

(** ** Parsing a module *)

Module Parser.
Import Source Lexer Ast.

Inductive parse_error : Type :=
| UnexpectedIndent (line : nat)
| UnterminatedString (line : nat)
| Unsupported (line : nat) (text : string).

Definition backslash : ascii := "092"%char.

Definition in_range (lo hi : nat) (c : ascii) : bool :=
  let n := nat_of_ascii c in Nat.leb lo n && Nat.leb n hi.

Definition is_ident_start (c : ascii) : bool :=
  in_range 65 90 c || in_range 97 122 c || Ascii.eqb c "_"%char.

Definition is_ident_char (c : ascii) : bool :=
  is_ident_start c || in_range 48 57 c.

Fixpoint all_chars (p : ascii -> bool) (s : string) : bool :=
  match s with
  | EmptyString => true
  | String c s' => p c && all_chars p s'
  end.

Definition keywords : list string :=
  [ "False"; "None"; "True"; "and"; "as"; "assert"; "async"; "await";
    "break"; "class"; "continue"; "def"; "del"; "elif"; "else"; "except";
    "finally"; "for"; "from"; "global"; "if"; "import"; "in"; "is";
    "lambda"; "nonlocal"; "not"; "or"; "pass"; "raise"; "return"; "try";
    "while"; "with"; "yield" ].

Definition is_keyword (s : string) : bool :=
  existsb (String.eqb s) keywords.

Definition is_identifier (s : string) : bool :=
  match s with
  | EmptyString => false
  | String c s' => is_ident_start c && all_chars is_ident_char s' && negb (is_keyword s)
  end.

Fixpoint split_on_from (sep : ascii) (cur : string) (s : string) : list string :=
  match s with
  | EmptyString => [cur]
  | String c s' =>
      if Ascii.eqb c sep then cur :: split_on_from sep "" s'
      else split_on_from sep (cur +:+ String c "") s'
  end.

Definition split_on (sep : ascii) (s : string) : list string :=
  split_on_from sep "" s.

(** [a.b.c]: identifiers separated by dots. *)
Definition is_dotted (s : string) : bool :=
  forallb is_identifier (split_on "."%char s).

(** The name an [import a.b.c] binds: [a]. *)
Definition head_name (s : string) : string :=
  match split_on "."%char s with
  | h :: _ => h
  | [] => s
  end.

(** Cut at the first occurrence of [c]. *)
Fixpoint cut_at (c : ascii) (s : string) : option (string * string) :=
  match s with
  | EmptyString => None
  | String d s' =>
      if Ascii.eqb c d then Some (EmptyString, s')
      else match cut_at c s' with
           | Some (l, r) => Some (String d l, r)
           | None => None
           end
  end.

Definition strip_comment (s : string) : string :=
  match cut_at "#"%char s with
  | Some (code, _) => code
  | None => s
  end.

(** After a string literal only white space or a comment may follow on the
    line; anything else is outside the supported fragment. *)
Definition tail_ok (tail : string) : bool :=
  let t := lstrip tail in String.eqb t "" || String.prefix "#" t.

Definition parse_expr (n : nat) (t : string) : result parse_error expr :=
  if String.eqb t "None" then Ok ENone
  else if is_identifier t then Ok (EName t)
  else
    let len := String.length t in
    let callee := String.substring 0 (len - 2) t in
    if Nat.leb 2 len && String.eqb (String.substring (len - 2) 2 t) "()"
       && is_dotted callee
    then Ok (ECall callee)
    else Err (Unsupported n t).

(** One logical line that is not a string literal: [pass], [import m],
    [x = e] or a bare expression, where [e] is [None], a name or a call
    without arguments. *)
Definition parse_simple (n : nat) (line : string) : result parse_error stmt :=
  let t := rstrip (strip_comment line) in
  if contains_char q_char t || contains_char "'"%char t then Err (Unsupported n t)
  else if String.eqb t "pass" then Ok SPass
  else if String.prefix "import " t then
    let m := strip (drop_chars 7 t) in
    if is_dotted m then Ok (SImport m) else Err (Unsupported n t)
  else
    match cut_at "="%char t with
    | Some (lhs, rhs) =>
        let x := strip lhs in
        if is_identifier x then
          e ← parse_expr n (strip rhs); Ok (SAssign x e)
        else Err (Unsupported n t)
    | None => e ← parse_expr n t; Ok (SExpr e)
    end.

(** A string literal used as a statement.  Escape sequences are not
    modelled: a body with a backslash is rejected. *)
Definition string_stmt (n : nat) (body tail : string) : result parse_error stmt :=
  if contains_char backslash body || negb (tail_ok tail)
  then Err (Unsupported n body)
  else Ok (SExpr (EStr body)).

(** Statements of a module, from its lexed lines.  [n] is the number of the
    line at the head of [items]; [pending] holds the line where an open
    string literal began and its text so far. *)
Fixpoint parse_items (n : nat) (pending : option (nat * string))
    (items : list line_item) : result parse_error module_body :=
  match items with
  | [] =>
      match pending with
      | Some (start, _) => Err (UnterminatedString start)
      | None => Ok []
      end
  | item :: rest =>
      match item, pending with
      | IStringMid part, Some (start, acc) =>
          parse_items (S n) (Some (start, acc +:+ part +:+ String newline "")) rest
      | IStringClose part tail, Some (start, acc) =>
          s ← string_stmt start (acc +:+ part) tail;
          body ← parse_items (S n) None rest;
          Ok (s :: body)
      | (IStringMid _ | IStringClose _ _), None => Err (Unsupported n "")
      | _, Some (start, _) => Err (UnterminatedString start)
      | (IBlank | IComment _), None => parse_items (S n) None rest
      | IStringWhole indented text tail, None =>
          if indented then Err (UnexpectedIndent n)
          else
            s ← string_stmt n text tail;
            body ← parse_items (S n) None rest;
            Ok (s :: body)
      | IStringOpen indented part, None =>
          if indented then Err (UnexpectedIndent n)
          else parse_items (S n) (Some (n, part +:+ String newline "")) rest
      | ICode indented text, None =>
          if indented then Err (UnexpectedIndent n)
          else
            s ← parse_simple n text;
            body ← parse_items (S n) None rest;
            Ok (s :: body)
      end
  end.

Definition parse_module (src : string) : result parse_error module_body :=
  parse_items 1 None (lex_lines false (split_lines src)).

End Parser.

(** ** Executing a module *)

Module Semantics.
Import Source Lexer Ast Parser.

Inductive value : Type :=
| VNone
| VStr (s : string)
| VModule (name : string)
| VExternal (tag : string).

Inductive py_error : Type :=
| NameError (x : string)
| ModuleNotFoundError (m : string)
| ExternalError (msg : string).

(** What reaches outside the module: importing a module runs its code,
    calling runs the callee's. *)
Inductive event : Type :=
| EvImport (m : string)
| EvCall (callee : string).

(** Everything outside the module's own namespace: the interpreter's table of
    loaded modules, the named resources a callee can touch (files, database
    tables, network endpoints) and the log of what was run. *)
Record World : Type := mkWorld {
  sys_modules : gset string;
  resources : gmap string string;
  trace : list event
}.

(** The namespace holds the names bound by the statements of the module. *)
Record State : Type := mkState {
  ns : gmap string value;
  world : World
}.

(** The environment of one execution: the attributes the loader gives the
    module, what importing and calling do to the resources, and the world the
    execution starts in.  Nothing is assumed about [env_import] and
    [env_call]. *)
Record Env : Type := mkEnv {
  env_name : string;
  env_file : string;
  env_import : string -> gmap string string -> option (gmap string string);
  env_call : string -> gmap string string ->
             result py_error (value * gmap string string);
  env_world : World
}.

Definition loader_attrs (env : Env) : gmap string value :=
  <["__name__" := VStr (env_name env)]>
    (<["__file__" := VStr (env_file env)]> ∅).

(** Reading a name: the module's own bindings first, then the loader's. *)
Definition lookup_name (env : Env) (st : State) (x : string) : option value :=
  match ns st !! x with
  | Some v => Some v
  | None => loader_attrs env !! x
  end.

Definition bind_name (x : string) (v : value) (st : State) : State :=
  mkState (<[x := v]> (ns st)) (world st).

Definition eval_expr (env : Env) (e : expr) (st : State)
    : result py_error (value * State) :=
  match e with
  | EStr s => Ok (VStr s, st)
  | ENone => Ok (VNone, st)
  | EName x =>
      match lookup_name env st x with
      | Some v => Ok (v, st)
      | None => Err (NameError x)
      end
  | ECall callee =>
      match lookup_name env st (head_name callee) with
      | None => Err (NameError (head_name callee))
      | Some _ =>
          let w := world st in
          '(v, r) ← env_call env callee (resources w);
          Ok (v, mkState (ns st)
                   (mkWorld (sys_modules w) r (trace w ++ [EvCall callee])))
      end
  end.

Definition exec_stmt (env : Env) (s : stmt) (st : State) : result py_error State :=
  match s with
  | SExpr e => '(_, st') ← eval_expr env e st; Ok st'
  | SAssign x e => '(v, st') ← eval_expr env e st; Ok (bind_name x v st')
  | SPass => Ok st
  | SImport m =>
      let w := world st in
      let x := head_name m in
      if decide (m ∈ sys_modules w) then Ok (bind_name x (VModule x) st)
      else
        match env_import env m (resources w) with
        | None => Err (ModuleNotFoundError m)
        | Some r =>
            Ok (bind_name x (VModule x)
                  (mkState (ns st)
                     (mkWorld ({[m]} ∪ sys_modules w) r (trace w ++ [EvImport m]))))
        end
  end.

Fixpoint exec_block (env : Env) (body : module_body) (st : State)
    : result py_error State :=
  match body with
  | [] => Ok st
  | s :: rest => st' ← exec_stmt env s st; exec_block env rest st'
  end.

(** A string literal as the first statement is the module's docstring: it is
    stored under [__doc__] before the rest of the body runs. *)
Definition exec_module (env : Env) (body : module_body) (st : State)
    : result py_error State :=
  match body with
  | SExpr (EStr doc) :: rest => exec_block env rest (bind_name "__doc__" (VStr doc) st)
  | _ => exec_block env body st
  end.

Inductive failure : Type :=
| ParseFailure (e : parse_error)
| Raised (e : py_error).

(** Compile the text and run it on [st]. *)
Definition exec_source (src : string) (env : Env) (st : State) : result failure State :=
  body ← map_err ParseFailure (parse_module src);
  map_err Raised (exec_module env body st).

(** A fresh module: no name bound yet, the world as the environment has it. *)
Definition initial_state (env : Env) : State := mkState ∅ (env_world env).

Definition run_source (src : string) (env : Env) : result failure State :=
  exec_source src env (initial_state env).

(** Executing flow.py. *)
Definition flow_module (env : Env) : result failure State := run_source flow_py env.

(** The namespace a run ends with. *)
Definition module_state (r : result failure State) : result failure (gmap string value) :=
  st ← r; Ok (ns st).

(** *** Syntactic checks on a body *)

Definition expr_infallible (e : expr) : bool :=
  match e with
  | EStr _ | ENone => true
  | EName _ | ECall _ => false
  end.

(** A statement that cannot raise. *)
Definition infallible (s : stmt) : bool :=
  match s with
  | SExpr e | SAssign _ e => expr_infallible e
  | SPass => true
  | SImport _ => false
  end.

Definition expr_calls (e : expr) : list string :=
  match e with
  | ECall callee => [callee]
  | _ => []
  end.

Definition calls_of (s : stmt) : list string :=
  match s with
  | SExpr e | SAssign _ e => expr_calls e
  | _ => []
  end.

Definition imports_of (s : stmt) : list string :=
  match s with
  | SImport m => [m]
  | _ => []
  end.

(** A statement that neither imports nor calls. *)
Definition effect_free (s : stmt) : bool :=
  match calls_of s, imports_of s with
  | [], [] => true
  | _, _ => false
  end.

(** The names a statement binds. *)
Definition binds (s : stmt) : list string :=
  match s with
  | SAssign x _ => [x]
  | SImport m => [head_name m]
  | _ => []
  end.

(** A statement that computes: it reads a name, calls, imports or binds.  A
    bare constant and [pass] do not. *)
Definition computes (s : stmt) : bool :=
  match s with
  | SExpr (EStr _) | SExpr ENone | SPass => false
  | _ => true
  end.

(** A name is public unless it starts with an underscore. *)
Definition is_public (x : string) : bool := negb (String.prefix "_" x).

(** *** The trivial module of the specification *)

(** The program with no statement at all. *)
Definition empty_program : module_body := [].

(** The empty program followed by the assignment of the docstring. *)
Definition trivial_module : module_body :=
  (empty_program ++ [SAssign "__doc__" (EStr flow_docstring)])%list.

(** Run a body as it stands, no docstring convention applied. *)
Definition run_body (body : module_body) (env : Env) : result failure State :=
  map_err Raised (exec_block env body (initial_state env)).

(** *** Environments used in examples *)

(** Nothing installed, every call raises. *)
Definition bare_env : Env :=
  mkEnv "__main__" "flow.py"
    (fun _ _ => None)
    (fun callee _ => Err (ExternalError callee))
    (mkWorld ∅ ∅ []).

(** cocoindex installed; importing it touches no resource; a call writes
    the callee's name into the table [defi_metrics]. *)
Definition sidecar_env : Env :=
  mkEnv "flow" "/srv/w3rt/examples/defi-metrics/cocoindex/flow.py"
    (fun m r => if String.eqb (head_name m) "cocoindex" then Some r else None)
    (fun callee r => Ok (VExternal callee, <["defi_metrics" := callee]> r))
    (mkWorld {["sys"]} (<["defi_metrics" := "rows"]> ∅) [EvImport "sys"]).

End Semantics.

(** * Properties *)

Import Source Lexer Ast Parser Semantics.

(** ** Blocks in general *)

Section Blocks.
Variable env : Env.

Lemma eval_expr_infallible (e : expr) (st : State) :
  expr_infallible e = true -> exists v, eval_expr env e st = Ok (v, st).
Proof.
  destruct e; simpl; intros H; try discriminate; eauto.
Qed.

(** A statement that cannot raise returns, and leaves the world alone. *)
Lemma exec_stmt_infallible (s : stmt) (st : State) :
  infallible s = true ->
  exists st', exec_stmt env s st = Ok st' /\ world st' = world st.
Proof.
  destruct s as [e | x e | | m]; simpl; intros H; try discriminate.
  - destruct (eval_expr_infallible e st H) as [v ->]. simpl. eauto.
  - destruct (eval_expr_infallible e st H) as [v ->]. simpl. eauto.
  - eauto.
Qed.

Lemma exec_block_infallible (body : module_body) :
  forallb infallible body = true ->
  forall st, exists st', exec_block env body st = Ok st' /\ world st' = world st.
Proof.
  induction body as [| s rest IH]; simpl; intros H st.
  - eauto.
  - apply andb_prop in H as [Hs Hrest].
    destruct (exec_stmt_infallible s st Hs) as (st1 & -> & Hw1).
    destruct (IH Hrest st1) as (st2 & Hrun & Hw2).
    exists st2. simpl. split; [exact Hrun | congruence].
Qed.

Lemma exec_module_infallible (body : module_body) (st : State) :
  forallb infallible body = true ->
  exists st', exec_module env body st = Ok st' /\ world st' = world st.
Proof.
  intros H.
  destruct body as [| [[doc | | x | c] | x e | | m] rest];
    try (apply (exec_block_infallible _ H st)).
  simpl in H. simpl.
  apply (exec_block_infallible rest H (bind_name "__doc__" (VStr doc) st)).
Qed.

(** Without import and call nothing outside the namespace changes. *)
Lemma exec_stmt_effect_free (s : stmt) (st st' : State) :
  effect_free s = true -> exec_stmt env s st = Ok st' -> world st' = world st.
Proof.
  destruct s as [[doc | | x | c] | y [doc | | x | c] | | m]; simpl;
    intros Hfree Hrun; try discriminate;
    try (injection Hrun as <-; reflexivity).
  - destruct (lookup_name env st x); simpl in Hrun; [| discriminate].
    injection Hrun as <-; reflexivity.
  - destruct (lookup_name env st x); simpl in Hrun; [| discriminate].
    injection Hrun as <-; reflexivity.
Qed.

Lemma exec_block_effect_free (body : module_body) :
  forallb effect_free body = true ->
  forall st st', exec_block env body st = Ok st' -> world st' = world st.
Proof.
  induction body as [| s rest IH]; simpl; intros H st st' Hrun.
  - injection Hrun as <-; reflexivity.
  - apply andb_prop in H as [Hs Hrest].
    destruct (exec_stmt env s st) as [st1 |] eqn:Hstep; simpl in Hrun;
      [| discriminate].
    rewrite (IH Hrest _ _ Hrun). exact (exec_stmt_effect_free s st st1 Hs Hstep).
Qed.

(** Evaluating an expression never touches the namespace. *)
Lemma eval_expr_ns (e : expr) (st st' : State) (v : value) :
  eval_expr env e st = Ok (v, st') -> ns st' = ns st.
Proof.
  destruct e as [doc | | x | c]; simpl; intros Hrun.
  - injection Hrun as _ <-; reflexivity.
  - injection Hrun as _ <-; reflexivity.
  - destruct (lookup_name env st x); [| discriminate].
    injection Hrun as _ <-; reflexivity.
  - destruct (lookup_name env st (head_name c)); [| discriminate].
    destruct (env_call env c (resources (world st))) as [[v' r] |];
      simpl in Hrun; [| discriminate].
    injection Hrun as _ <-; reflexivity.
Qed.

(** A name a statement does not bind keeps its binding. *)
Lemma exec_stmt_frame (s : stmt) (st st' : State) (x : string) :
  x ∉ binds s -> exec_stmt env s st = Ok st' -> ns st' !! x = ns st !! x.
Proof.
  destruct s as [e | y e | | m]; simpl; intros Hx Hrun.
  - destruct (eval_expr env e st) as [[v st1] |] eqn:He; simpl in Hrun;
      [| discriminate].
    injection Hrun as <-. by rewrite (eval_expr_ns _ _ _ _ He).
  - destruct (eval_expr env e st) as [[v st1] |] eqn:He; simpl in Hrun;
      [| discriminate].
    injection Hrun as <-. simpl.
    rewrite lookup_insert_ne; [| set_solver].
    by rewrite (eval_expr_ns _ _ _ _ He).
  - by injection Hrun as <-.
  - destruct (decide (m ∈ sys_modules (world st))).
    + injection Hrun as <-. simpl. rewrite lookup_insert_ne; [done | set_solver].
    + destruct (env_import env m (resources (world st))); [| discriminate].
      injection Hrun as <-. simpl. rewrite lookup_insert_ne; [done | set_solver].
Qed.

Lemma exec_block_frame (body : module_body) (x : string) :
  Forall (fun s => x ∉ binds s) body ->
  forall st st', exec_block env body st = Ok st' -> ns st' !! x = ns st !! x.
Proof.
  induction 1 as [| s rest Hs _ IH]; simpl; intros st st' Hrun.
  - by injection Hrun as <-.
  - destruct (exec_stmt env s st) as [st1 |] eqn:Hstep; simpl in Hrun;
      [| discriminate].
    rewrite (IH _ _ Hrun). exact (exec_stmt_frame s st st1 x Hs Hstep).
Qed.

(** The same for a whole module, where the docstring convention binds
    [__doc__] and nothing else. *)
Lemma exec_module_effect_free (body : module_body) (st st' : State) :
  forallb effect_free body = true ->
  exec_module env body st = Ok st' -> world st' = world st.
Proof.
  intros H Hrun.
  destruct body as [| [[doc | | x | c] | x e | | m] rest];
    exact (exec_block_effect_free _ H _ _ Hrun).
Qed.

Lemma exec_module_frame (body : module_body) (x : string) (st st' : State) :
  x <> "__doc__" ->
  Forall (fun s => x ∉ binds s) body ->
  exec_module env body st = Ok st' -> ns st' !! x = ns st !! x.
Proof.
  intros Hx H Hrun.
  destruct body as [| [[doc | | y | c] | y e | | m] rest];
    try exact (exec_block_frame _ x H _ _ Hrun).
  simpl in Hrun. apply Forall_inv_tail in H.
  rewrite (exec_block_frame rest x H _ _ Hrun). simpl.
  by rewrite lookup_insert_ne.
Qed.

End Blocks.

(** ** The file *)

Lemma flow_lines : split_lines flow_py = flow_py_lines.
Proof. vm_compute. reflexivity. Qed.

Lemma flow_size : String.length flow_py = 1318.
Proof. vm_compute. reflexivity. Qed.

Lemma flow_kinds :
  line_kinds flow_py = (replicate 10 KString ++ [KBlank] ++ replicate 27 KComment)%list.
Proof. vm_compute. reflexivity. Qed.

Lemma flow_parse : parse_module flow_py = Ok [SExpr (EStr flow_docstring)].
Proof. vm_compute. reflexivity. Qed.

Lemma flow_exec (env : Env) (st : State) :
  exec_source flow_py env st = Ok (bind_name "__doc__" (VStr flow_docstring) st).
Proof. unfold exec_source. rewrite flow_parse. reflexivity. Qed.

Lemma exec_source_intro (src : string) (env : Env) (body : module_body) (st st' : State) :
  parse_module src = Ok body ->
  exec_module env body st = Ok st' ->
  exec_source src env st = Ok st'.
Proof.
  unfold exec_source. intros -> Hrun.
  cbv [mbind result_bind map_err]. by rewrite Hrun.
Qed.

(** A run that returns went through the parser and the interpreter. *)
Lemma exec_source_inv (src : string) (env : Env) (st st' : State) :
  exec_source src env st = Ok st' ->
  exists body, parse_module src = Ok body /\ exec_module env body st = Ok st'.
Proof.
  unfold exec_source. destruct (parse_module src) as [body | e]; simpl; [| discriminate].
  destruct (exec_module env body st) as [st1 | e] eqn:Hrun; simpl; [| discriminate].
  intros [= <-]. eauto.
Qed.

Lemma flow_run (env : Env) :
  flow_module env =
  Ok (mkState (<["__doc__" := VStr flow_docstring]> ∅) (env_world env)).
Proof. unfold flow_module, run_source. rewrite flow_exec. reflexivity. Qed.

(** The model does tell a module that runs something from one that does not:
    with the import of line 14 uncommented the module raises where cocoindex
    is not installed, and with lines 14 and 36 uncommented it imports, calls
    and overwrites the table where it is. *)
Example uncommented_import_raises :
  run_source "import cocoindex" bare_env =
  Err (Raised (ModuleNotFoundError "cocoindex")).
Proof. reflexivity. Qed.

Example uncommented_export_runs :
  match run_source (join_lines ["import cocoindex"; "cocoindex.targets.Postgres()"])
          sidecar_env with
  | Ok st =>
      trace (world st) =
        [EvImport "sys"; EvImport "cocoindex"; EvCall "cocoindex.targets.Postgres"]
      /\ resources (world st) !! "defi_metrics" = Some "cocoindex.targets.Postgres"
      /\ ns st !! "cocoindex" = Some (VModule "cocoindex")
  | Err _ => False
  end.
Proof. vm_compute. repeat split. Qed.

Example sketch_line_is_rejected :
  parse_module "def flow(flow_builder, scope):" =
  Err (Unsupported 1 "def flow(flow_builder, scope):").
Proof. reflexivity. Qed.

(** ** What executing flow.py does *)

(** C1.  Executing flow.py is executing the trivial module: the file parses
    to its docstring followed by the empty program, and in every
    environment, from the fresh namespace as from any other state, running
    the file gives what running the empty program extended with the
    assignment of the docstring to [__doc__] gives. *)
Theorem flow_refines_trivial_module :
  parse_module flow_py = Ok (SExpr (EStr flow_docstring) :: empty_program) /\
  forall env : Env,
    flow_module env = run_body trivial_module env /\
    forall st : State,
      exec_source flow_py env st = map_err Raised (exec_block env trivial_module st).
Proof.
  split; [exact flow_parse |].
  intros env. split.
  - unfold run_body. rewrite flow_run. reflexivity.
  - intros st. rewrite flow_exec. reflexivity.
Qed.

(** C2, as stated, fails: line 1 of the file opens the docstring with a
    triple quote, so it is a string line and not a comment line, and the 38
    lines are not all comment lines. *)
Lemma first_line_is_not_a_comment :
  flow_py_lines !! 0 = Some (q3 +:+ "Placeholder CocoIndex flow.") /\
  line_kinds flow_py !! 0 = Some KString /\
  ~ Forall (fun k => is_comment_kind k = true) (line_kinds flow_py).
Proof.
  split; [reflexivity |]. rewrite flow_kinds. split; [reflexivity |].
  intros H. apply Forall_inv in H. discriminate H.
Qed.

(** C2, amended.  The file has 38 lines: lines 1 to 10 are the docstring (a
    string literal), line 11 is blank and lines 12 to 38, 27 lines, are
    comment lines; no line is code. *)
Theorem flow_line_census :
  length (split_lines flow_py) = 38 /\
  line_kinds flow_py =
    (replicate 10 KString ++ [KBlank] ++ replicate 27 KComment)%list /\
  count_kind KString (line_kinds flow_py) = 10 /\
  count_kind KBlank (line_kinds flow_py) = 1 /\
  count_kind KComment (line_kinds flow_py) = 27 /\
  count_kind KCode (line_kinds flow_py) = 0.
Proof.
  rewrite flow_lines, flow_kinds. repeat split.
Qed.

(** C3.  The only top-level statement of the module is the docstring
    literal, which takes lines 1 to 10; each of the other 28 lines is a
    comment line or blank. *)
Theorem flow_docstring_then_comments :
  parse_module flow_py = Ok [SExpr (EStr flow_docstring)] /\
  length (line_kinds flow_py) = 38 /\
  take 10 (line_kinds flow_py) = replicate 10 KString /\
  Forall (fun k => is_comment_or_blank k = true) (drop 10 (line_kinds flow_py)).
Proof.
  split; [exact flow_parse |]. rewrite flow_kinds.
  repeat split. simpl. repeat constructor.
Qed.

(** C4.  Executing the module never raises: the parsed body holds only
    statements that cannot fail, and in every environment the run returns,
    from the fresh namespace and from any other state. *)
Theorem flow_never_raises :
  (exists body, parse_module flow_py = Ok body /\ forallb infallible body = true) /\
  forall env : Env,
    (exists st, flow_module env = Ok st) /\
    (forall st0 : State, exists st, exec_source flow_py env st0 = Ok st).
Proof.
  split.
  - exists [SExpr (EStr flow_docstring)]. split; [exact flow_parse | reflexivity].
  - intros env.
    assert (Hall : forall st0 : State, exists st, exec_source flow_py env st0 = Ok st).
    { intros st0. unfold exec_source. rewrite flow_parse. simpl.
      destruct (exec_module_infallible env [SExpr (EStr flow_docstring)] st0 eq_refl)
        as (st & Hrun & _).
      simpl in Hrun. injection Hrun as <-. eauto. }
    split; [apply Hall | exact Hall].
Qed.

(** C5.  None of the nine row fields is bound or stored: no statement of the
    module binds one of them, after the run none of them is in the module
    namespace, and the resources (the table [defi_metrics] among them) are
    as before; run from any other state, the module leaves the binding of
    each field, if any, as it found it. *)
Theorem row_fields_are_not_defined :
  (exists body, parse_module flow_py = Ok body /\
     Forall (fun f => Forall (fun s => f ∉ binds s) body) row_fields) /\
  forall env : Env,
    (exists st,
       flow_module env = Ok st /\
       Forall (fun f => ns st !! f = None) row_fields /\
       resources (world st) = resources (env_world env)) /\
    (forall st0 : State, exists st,
       exec_source flow_py env st0 = Ok st /\
       Forall (fun f => ns st !! f = ns st0 !! f) row_fields /\
       resources (world st) = resources (world st0)).
Proof.
  assert (Hfields : Forall (fun f => f <> "__doc__" /\
                                     Forall (fun s => f ∉ binds s)
                                       [SExpr (EStr flow_docstring)]) row_fields).
  { unfold row_fields.
    repeat (constructor; [split; [discriminate | repeat constructor; set_solver] |]).
    constructor. }
  split.
  - exists [SExpr (EStr flow_docstring)]. split; [exact flow_parse |].
    eapply Forall_impl; [exact Hfields |]. by intros f [_ Hf].
  - intros env.
    assert (Hany : forall st0 : State, exists st,
               exec_source flow_py env st0 = Ok st /\
               Forall (fun f => ns st !! f = ns st0 !! f) row_fields /\
               resources (world st) = resources (world st0)).
    { intros st0. eexists. split; [apply flow_exec |]. split; [| reflexivity].
      pose proof (flow_exec env st0) as Hrun.
      apply exec_source_inv in Hrun as (body & Hparse & Hrun).
      rewrite flow_parse in Hparse. injection Hparse as <-.
      eapply Forall_impl; [exact Hfields |].
      intros f [Hne Hf].
      exact (exec_module_frame env _ f st0 _ Hne Hf Hrun). }
    split; [| exact Hany].
    destruct (Hany (initial_state env)) as (st & Hrun & Hns & Hres).
    exists st. split; [exact Hrun |]. split; [| exact Hres].
    eapply Forall_impl; [exact Hns |]. simpl. intros f ->. apply lookup_empty.
Qed.

(** C6.  The framework is never reached: the module has no import statement
    and no call expression, and after the run the log of imports and calls,
    the table of loaded modules and the resources are those of the
    environment, whatever importing and calling would do there; the name
    [cocoindex] is not bound. *)
Theorem framework_is_never_invoked :
  (exists body, parse_module flow_py = Ok body /\
     concat (imports_of <$> body) = [] /\ concat (calls_of <$> body) = []) /\
  forall env : Env, exists st,
    flow_module env = Ok st /\
    trace (world st) = trace (env_world env) /\
    sys_modules (world st) = sys_modules (env_world env) /\
    resources (world st) = resources (env_world env) /\
    ns st !! "cocoindex" = None.
Proof.
  split.
  - exists [SExpr (EStr flow_docstring)]. split; [exact flow_parse |]. by split.
  - intros env.
    destruct (exec_module_infallible env [SExpr (EStr flow_docstring)]
                (initial_state env) eq_refl) as (st & Hrun & _).
    exists st. split; [exact (exec_source_intro _ _ _ _ _ flow_parse Hrun) |].
    rewrite (exec_module_effect_free env [SExpr (EStr flow_docstring)] _ _ eq_refl Hrun).
    do 3 (split; [reflexivity |]).
    assert (Hfree : Forall (fun s => "cocoindex" ∉ binds s) [SExpr (EStr flow_docstring)]).
    { repeat constructor; set_solver. }
    rewrite (exec_module_frame env _ "cocoindex" _ _ ltac:(discriminate) Hfree Hrun).
    apply lookup_empty.
Qed.

(** C7.  The only effect of the run is the binding of [__doc__]: from any
    state, the world afterwards is the world before, the namespace is the
    one before with [__doc__] set to the docstring, and every other name
    keeps its binding. *)
Theorem flow_only_binds_doc :
  forall (env : Env) (st0 : State), exists st,
    exec_source flow_py env st0 = Ok st /\
    world st = world st0 /\
    ns st = <["__doc__" := VStr flow_docstring]> (ns st0) /\
    forall x : string, x <> "__doc__" -> ns st !! x = ns st0 !! x.
Proof.
  intros env st0. eexists. split; [apply flow_exec |]. simpl.
  do 2 (split; [reflexivity |]). intros x Hx. by rewrite lookup_insert_ne.
Qed.

(** C8.  The file parses, and what it parses to computes nothing: no
    statement reads a name, calls, imports or assigns, and the run returns
    the fresh namespace with the docstring, in the world it started in. *)
Theorem flow_parses_and_is_inert :
  (exists body, parse_module flow_py = Ok body /\
     forallb (fun s => negb (computes s)) body = true) /\
  forall env : Env,
    flow_module env =
    Ok (mkState (<["__doc__" := VStr flow_docstring]> ∅) (env_world env)).
Proof.
  split.
  - exists [SExpr (EStr flow_docstring)]. split; [exact flow_parse | reflexivity].
  - exact flow_run.
Qed.

(** C9.  The run does not depend on the environment: any two executions end
    with the same module namespace, the one that binds [__doc__] to the
    docstring and nothing else; and from any two states whatever, both runs
    return and [__doc__] is the same fixed string in both. *)
Theorem flow_is_constant :
  (forall env1 env2 : Env,
     module_state (flow_module env1) = module_state (flow_module env2)) /\
  (forall env : Env,
     module_state (flow_module env) = Ok (<["__doc__" := VStr flow_docstring]> ∅)) /\
  (forall (env1 env2 : Env) (st1 st2 : State), exists st1' st2',
     exec_source flow_py env1 st1 = Ok st1' /\
     exec_source flow_py env2 st2 = Ok st2' /\
     ns st1' !! "__doc__" = Some (VStr flow_docstring) /\
     ns st2' !! "__doc__" = Some (VStr flow_docstring)).
Proof.
  split; [| split].
  - intros env1 env2. by rewrite !flow_run.
  - intros env. by rewrite flow_run.
  - intros env1 env2 st1 st2. do 2 eexists.
    split; [apply flow_exec |]. split; [apply flow_exec |].
    simpl. by rewrite !lookup_insert_eq.
Qed.

(** C10.  The module binds nothing but its docstring: after the run the
    namespace holds the one name [__doc__], bound to a string; [flow] is not
    bound, and no public name is.  Run from any other state, the module
    leaves every public name as it found it. *)
Theorem flow_binds_no_public_name :
  forall env : Env,
    (exists st,
       flow_module env = Ok st /\
       dom (ns st) = {["__doc__"]} /\
       ns st !! "__doc__" = Some (VStr flow_docstring) /\
       ns st !! "flow" = None /\
       forall x : string, is_public x = true -> ns st !! x = None) /\
    (forall st0 : State, exists st,
       exec_source flow_py env st0 = Ok st /\
       forall x : string, is_public x = true -> ns st !! x = ns st0 !! x).
Proof.
  assert (Hpub : forall x : string, is_public x = true -> "__doc__" <> x).
  { intros x Hx <-. discriminate Hx. }
  intros env. split.
  - eexists. split; [apply flow_run |]. simpl.
    split; [| split; [| split]].
    + rewrite dom_insert_L, dom_empty_L. set_solver.
    + apply lookup_insert_eq.
    + by rewrite lookup_insert_ne, lookup_empty.
    + intros x Hx. rewrite lookup_insert_ne, lookup_empty; [done | by apply Hpub].
  - intros st0. eexists. split; [apply flow_exec |]. simpl.
    intros x Hx. rewrite lookup_insert_ne; [done | by apply Hpub].
Qed.
